(** * Sunexposure: the vitamin D synthesis calculator of [sunexposure.py]

    The script is one straight-line pass: it reads three sidebar widgets and
    the New York wall clock, evaluates a chain of arithmetic formulas with a
    few threshold branches, and writes formatted lines to the page.

    Embedding conventions.
    - A Python [float] that is always finite is a rational [Q]; the three
      variables that can hold [float('inf')] have type [pyfloat].  Arithmetic
      is exact: binary64 rounding is not modelled, so every equality of
      numbers below is [Qeq] on exact values.
    - A statement that can raise ([/] on a zero divisor, a dictionary lookup
      on a missing key) returns [option]; [None] stands for the exception
      that ends the run.
    - The page is the list of [st.write] / [st.warning] / [st.info] calls in
      program order.  The static guidance text and the formula-breakdown
      expander at the end of the script are not embedded. *)

From Stdlib Require Import QArith Qround Qabs Lqa ZArith Lia.
From Stdlib Require Import String Ascii List Bool DecimalString.
From Stdlib Require Import DecimalPos DecimalN.
Import ListNotations.

Local Open Scope Q_scope.

(** ** Python numbers *)

(** A float that may be [float('inf')]. *)
Inductive pyfloat : Type :=
| Finite (q : Q)
| Inf.

(** [x < y] on floats; Python's [a > b] is [Qltb b a]. *)
Definition Qltb (x y : Q) : bool := negb (Qle_bool y x).

(** [x / y] on floats: [ZeroDivisionError] when the divisor is zero. *)
Definition truediv (x y : Q) : option Q :=
  if Qeq_bool y 0 then None else Some (x / y).

Definition bind {A B : Type} (m : option A) (k : A -> option B) : option B :=
  match m with
  | Some a => k a
  | None => None
  end.

Notation "x <- m ;; k" := (bind m (fun x => k))
  (at level 61, m at next level, right associativity).

(** ** Inputs *)

(** The values returned by the three sidebar widgets. *)
Record Sidebar : Type := mkSidebar {
  uv_index : Q;
  adaptation_factor : Q;
  selected_clothing : string
}.

(** [datetime.datetime.now(ny_tz)], the fields the script reads. *)
Record datetime : Type := mkDatetime {
  year : Z;
  month : Z;
  day : Z;
  hour : Z;
  minute : Z
}.

(** ** Clothing options (lines 15-23) *)

Definition clothing_options : list (string * Q) :=
  [ ("Nude (100%)"%string, 1.0);
    ("Minimal/Swimwear (80%)"%string, 0.8);
    ("Light/Shorts & T-shirt (40%)"%string, 0.4);
    ("Moderate/Long sleeves (15%)"%string, 0.15);
    ("Heavy/Fully covered (5%)"%string, 0.05) ].

(** [d[k]] on a dictionary: [KeyError] when the key is absent. *)
Fixpoint getitem (d : list (string * Q)) (k : string) : option Q :=
  match d with
  | [] => None
  | (k', v) :: d' => if String.eqb k k' then Some v else getitem d' k
  end.

Definition clothing_factor (s : Sidebar) : option Q :=
  getitem clothing_options (selected_clothing s).

(** What the widgets guarantee about their return values: [number_input]
    keeps the value within [min_value, max_value], [slider] likewise, and
    [selectbox] returns one of the listed keys. *)
Definition widgets_ok (s : Sidebar) : Prop :=
  0 <= uv_index s /\ uv_index s <= 20 /\
  0.8 <= adaptation_factor s /\ adaptation_factor s <= 1.2 /\
  In (selected_clothing s) (map fst clothing_options).

(** The widgets' defaults: UV index 9.0, adaptation 0.8, first option. *)
Definition default_sidebar : Sidebar :=
  mkSidebar 9.0 0.8 "Nude (100%)".

(** ** Fixed parameters (lines 26-34) *)

Definition base_rate : Q := 21000.
Definition skin_type_factor : Q := 1.0.
Definition age_factor : Q := 0.95.
Definition height_inches : Q := 74.
Definition weight_lbs : Q := 180.
Definition med_uv1 : Q := 425.

Definition body_mass_index (height_inches weight_lbs : Q) : Q :=
  let height_m := height_inches * 0.0254 in
  let weight_kg := weight_lbs * 0.453592 in
  if Qltb 0 height_m then weight_kg / (height_m ^ 2) else 0.

Definition bmi : Q := body_mass_index height_inches weight_lbs.

(** ** Quality factor (lines 43-48) *)

Definition peak_hours (current_hour : Z) : bool :=
  ((10 <=? current_hour) && (current_hour <? 15))%Z.

Definition quality_factor (current_hour : Z) : Q :=
  if peak_hours current_hour then 1.0 else 0.5.

(** ** UV factor and synthesis rate (lines 51-54) *)

Definition uv_factor (uv_index : Q) : option Q :=
  truediv (uv_index * 3.0) (4.0 + uv_index).

Definition vitamin_d_rate
    (uv_factor clothing_factor quality_factor adaptation_factor : Q) : Q :=
  base_rate * uv_factor * clothing_factor * skin_type_factor * age_factor
    * quality_factor * adaptation_factor.

(** ** Time to 15,000 IU (lines 57-61) *)

Definition time_to_15000_minutes (vitamin_d_rate : Q) : pyfloat :=
  if Qltb 0 vitamin_d_rate then
    let time_to_15000_hours := 15000 / vitamin_d_rate in
    Finite (time_to_15000_hours * 60)
  else Inf.

(** ** Burn time (lines 64-69): the pair
    [(burn_time_minutes, safety_warning_minutes)]. *)

Definition burn_times (uv_index : Q) : pyfloat * pyfloat :=
  if Qltb 0 uv_index then
    let burn_time_minutes := med_uv1 / uv_index in
    let safety_warning_minutes := burn_time_minutes * 0.8 in
    (Finite burn_time_minutes, Finite safety_warning_minutes)
  else (Inf, Inf).

Definition burn_time_minutes (uv_index : Q) : pyfloat :=
  fst (burn_times uv_index).

Definition safety_warning_minutes (uv_index : Q) : pyfloat :=
  snd (burn_times uv_index).

(** ** Text formatting *)

Local Open Scope string_scope.

(** [str(n)] for an [int]. *)
Definition str_int (n : Z) : string := NilZero.string_of_int (Z.to_int n).

(** The last [width] decimal digits of [n], most significant first
    (zero-padded). *)
Fixpoint zfill (width : nat) (n : Z) : string :=
  match width with
  | O => ""
  | S w =>
      zfill w (n / 10) ++
      String (ascii_of_nat (48 + Z.to_nat (n mod 10))) ""
  end.

(** Rounding to the nearest integer, ties to the even one, as the
    fixed-point format does.  Ties are decided on the exact value. *)
Definition round_half_even (q : Q) : Z :=
  let f := Qfloor q in
  match Qcompare (q - inject_Z f) (1 # 2) with
  | Lt => f
  | Gt => (f + 1)%Z
  | Eq => if Z.even f then f else (f + 1)%Z
  end.

(** [f"{q:.<prec>f}"] for a finite float. *)
Definition format_Q (prec : nat) (q : Q) : string :=
  let scale := (10 ^ Z.of_nat prec)%Z in
  let n := round_half_even (Qabs q * inject_Z scale) in
  (if Qltb q 0 then "-" else "") ++
  str_int (n / scale) ++
  match prec with
  | O => ""
  | _ => "." ++ zfill prec (n mod scale)
  end.

(** [f"{x:.<prec>f}"]: infinity is printed as the three letters [inf]. *)
Definition format_f (prec : nat) (x : pyfloat) : string :=
  match x with
  | Finite q => format_Q prec q
  | Inf => "inf"
  end.

(** [strftime('%I:%M %p')]: twelve-hour clock, zero-padded. *)
Definition strftime_I_M_p (t : datetime) : string :=
  let h12 := (hour t mod 12)%Z in
  zfill 2 (if (h12 =? 0)%Z then 12%Z else h12) ++ ":" ++ zfill 2 (minute t)
    ++ " " ++ (if (hour t <? 12)%Z then "AM" else "PM").

(** [strftime('%Y-%m-%d %I:%M %p')]. *)
Definition strftime_Y_m_d_I_M_p (t : datetime) : string :=
  zfill 4 (year t) ++ "-" ++ zfill 2 (month t) ++ "-" ++ zfill 2 (day t)
    ++ " " ++ strftime_I_M_p t.

(** Assigned by the same [if] as [quality_factor]. *)
Definition quality_note (current_time : datetime) : string :=
  if peak_hours (hour current_time) then
    "Peak time (10 AM - 3 PM): Quality Factor = 1.0"
  else
    "Off-peak time (" ++ strftime_I_M_p current_time ++
    "): Quality Factor = 0.5 (reduced for lower UV-B efficacy)".

(** ** The page *)

Inductive element : Type :=
| write (body : string)
| warning (body : string)
| info (body : string).

(** Lines 72-82. *)
Definition display_results (current_time : datetime) (quality_note : string)
    (vitamin_d_rate : Q)
    (time_to_15000_minutes burn_time_minutes safety_warning_minutes : pyfloat)
    : list element :=
  [ write ("Current New York Time: " ++ strftime_Y_m_d_I_M_p current_time);
    write quality_note;
    write "### Calculated Vitamin D Rate";
    write (format_Q 2 vitamin_d_rate ++ " IU/hour");
    write "### Time Needed for 15,000 IU";
    write ("Approximately " ++ format_f 1 time_to_15000_minutes ++
           " minutes of exposure.");
    write "### Time Before Burning";
    write ("Technical burn time (1 MED): " ++ format_f 1 burn_time_minutes ++
           " minutes.");
    write ("Safety warning threshold (80% of burn time): " ++
           format_f 1 safety_warning_minutes ++ " minutes.") ].

(** ** Winter supplement notice (lines 85-99) *)

Definition winter_months : list Z := [11; 12; 1; 2]%Z.

Definition is_winter (current_month : Z) : bool :=
  existsb (Z.eqb current_month) winter_months.

(** Lines 86-90; Python's [bmi >= 30] is [Qle_bool 30 bmi]. *)
Definition supplement_rec (bmi : Q) : Z :=
  let supplement_rec := 2000%Z in
  if Qle_bool 30 bmi then 4000%Z
  else if Qle_bool 25 bmi then 3000%Z
  else supplement_rec.

Definition newline : string := String (ascii_of_nat 10) "".
Definition dquote : string := String (ascii_of_nat 34) "".
Definition degree_sign : string :=
  String (ascii_of_nat 194) (String (ascii_of_nat 176) "").

(** The f-string of lines 92-97. *)
Definition winter_notice (bmi : Q) (supplement_rec : Z) : string :=
  newline ++
  "    **Winter Vitamin D Notice**: You're in the north (New York, ~40.7" ++
  degree_sign ++ "N latitude), where UV-B is insufficient for vitamin D " ++
  "synthesis from November to February. " ++ newline ++
  "    Based on your height (6'2" ++ dquote ++ ") and weight (180 lbs), " ++
  "your BMI is approximately " ++ format_Q 1 bmi ++ " (normal range). " ++
  newline ++
  "    Recommend supplementing " ++ str_int supplement_rec ++
  " IU/day of vitamin D during these months to maintain adequate levels. " ++
  newline ++
  "    This is a general guideline; consult a healthcare provider for " ++
  "personalized advice, especially if you have risk factors for deficiency."
  ++ newline ++ "    ".

Definition not_winter_note : string :=
  "It's not winter (Nov-Feb), so sun exposure can contribute to vitamin D needs, but monitor UV levels.".

(** The value of the variable [supplement_rec] after the branch (unbound
    outside winter) and the element the branch puts on the page. *)
Definition seasonal_notice (current_month : Z) (bmi : Q)
    : option Z * element :=
  if is_winter current_month then
    let dose := supplement_rec bmi in
    (Some dose, warning (winter_notice bmi dose))
  else
    (None, info not_winter_note).

(** ** One run of the script *)

Record Report : Type := mkReport {
  rep_clothing_factor : Q;
  rep_quality_factor : Q;
  rep_uv_factor : Q;
  rep_vitamin_d_rate : Q;
  rep_time_to_15000_minutes : pyfloat;
  rep_burn_time_minutes : pyfloat;
  rep_safety_warning_minutes : pyfloat;
  rep_supplement_rec : option Z;
  rep_page : list element
}.

Definition run (s : Sidebar) (current_time : datetime) : option Report :=
  cf <- clothing_factor s ;;
  let current_hour := hour current_time in
  let current_month := month current_time in
  let qf := quality_factor current_hour in
  let note := quality_note current_time in
  uvf <- uv_factor (uv_index s) ;;
  let rate := vitamin_d_rate uvf cf qf (adaptation_factor s) in
  let minutes := time_to_15000_minutes rate in
  let '(burn, safety) := burn_times (uv_index s) in
  let '(dose, notice) := seasonal_notice current_month bmi in
  Some (mkReport cf qf uvf rate minutes burn safety dose
          (display_results current_time note rate minutes burn safety
             ++ [notice])).

(** ** Sample inputs and vocabulary of the statements *)

(** A July noon and a January evening, for running the script. *)
Definition july_noon : datetime := mkDatetime 2025 7 15 12 0.
Definition january_evening : datetime := mkDatetime 2025 1 9 18 5.


(** A text shows a number when it has a decimal digit in it. *)
Definition is_digit (c : ascii) : bool :=
  let n := nat_of_ascii c in ((48 <=? n) && (n <=? 57))%nat.

Definition has_digit (s : string) : bool :=
  existsb is_digit (list_ascii_of_string s).

(** [x] agrees with the decimal [d] to [prec] places: [x] is within half a
    unit of the last place of [d]. *)
Definition agrees_to (prec : nat) (x d : Q) : Prop :=
  Qabs (x - d) <= (1 # 2) / inject_Z (10 ^ Z.of_nat prec).

(** ** Vocabulary of the further properties *)

(** The sidebar that maximises the rate. *)
Definition brightest_sidebar : Sidebar := mkSidebar 20 1.2 "Nude (100%)".

(** The most covering option at the defaults' UV index. *)
Definition heavy_sidebar : Sidebar :=
  mkSidebar 9.0 1.2 "Heavy/Fully covered (5%)".

(** Two floats are the same number. *)
Definition pyfloat_eq (x y : pyfloat) : Prop :=
  match x, y with
  | Finite a, Finite b => a == b
  | Inf, Inf => True
  | _, _ => False
  end.



(** Reading a printed decimal back: an optional minus sign, the digits of
    the whole part and, after a point, the digits of the fraction. *)
Definition digit_value (c : ascii) : option Z :=
  if is_digit c then Some (Z.of_nat (nat_of_ascii c) - 48)%Z else None.

Fixpoint digits_value (s : string) (acc : Z) : option Z :=
  match s with
  | EmptyString => Some acc
  | String c s' =>
      match digit_value c with
      | Some d => digits_value s' (10 * acc + d)%Z
      | None => None
      end
  end.

Fixpoint split_point (s : string) : string * option string :=
  match s with
  | EmptyString => (EmptyString, None)
  | String c s' =>
      if Ascii.eqb c "." then (EmptyString, Some s')
      else let '(whole, fraction) := split_point s' in
           (String c whole, fraction)
  end.

Definition read_unsigned (s : string) : option Q :=
  let '(whole, fraction) := split_point s in
  match NilZero.uint_of_string whole with
  | None => None
  | Some d =>
      let i := inject_Z (Z.of_N (N.of_uint d)) in
      match fraction with
      | None => Some i
      | Some f =>
          match digits_value f 0 with
          | Some v =>
              Some (i + inject_Z v / inject_Z (10 ^ Z.of_nat (String.length f)))
          | None => None
          end
      end
  end.

Definition read_fixed (s : string) : option Q :=
  match s with
  | EmptyString => None
  | String c s' =>
      if Ascii.eqb c "-" then option_map Qopp (read_unsigned s')
      else read_unsigned s
  end.

Definition all_digits (s : string) : bool :=
  forallb is_digit (list_ascii_of_string s).

(** * Properties *)

Local Open Scope Q_scope.

(** Closed facts about concrete numbers, settled by running the
    comparison. *)
Ltac by_evaluation :=
  vm_compute;
  first [ reflexivity
        | discriminate
        | let H := fresh in
          intro H; first [ discriminate H | apply H; reflexivity ] ].

(** ** Comparisons and division *)

Lemma Qltb_lt (x y : Q) : Qltb x y = true <-> x < y.
Proof.
  unfold Qltb. rewrite negb_true_iff, <- not_true_iff_false, Qle_bool_iff.
  split; [apply Qnot_le_lt | apply Qlt_not_le].
Qed.

Lemma Qltb_ge (x y : Q) : Qltb x y = false <-> y <= x.
Proof.
  unfold Qltb. rewrite negb_false_iff. apply Qle_bool_iff.
Qed.

Lemma Qle_bool_lt (x y : Q) : Qle_bool x y = false <-> y < x.
Proof.
  rewrite <- not_true_iff_false, Qle_bool_iff.
  split; [apply Qnot_le_lt | apply Qlt_not_le].
Qed.

Lemma truediv_defined (x y : Q) : ~ y == 0 -> truediv x y = Some (x / y).
Proof.
  intros Hy. unfold truediv.
  destruct (Qeq_bool y 0) eqn:E; [|reflexivity].
  apply Qeq_bool_iff in E. contradiction.
Qed.

(** The saturating curve [3u / (4 + u)] on non-negative arguments. *)


Lemma uv_curve_nonneg (u : Q) : 0 <= u -> 0 <= (u * 3.0) / (4.0 + u).
Proof.
  intros Hu. apply Qle_shift_div_l; lra.
Qed.



Lemma uv_factor_defined (u : Q) :
  ~ 4.0 + u == 0 -> uv_factor u = Some ((u * 3.0) / (4.0 + u)).
Proof.
  intros Hu. unfold uv_factor. now apply truediv_defined.
Qed.

Lemma uv_factor_nonneg_defined (u : Q) :
  0 <= u -> uv_factor u = Some ((u * 3.0) / (4.0 + u)).
Proof.
  intros Hu. apply uv_factor_defined. lra.
Qed.

(** ** The clothing dictionary *)

Lemma clothing_factor_defined (s : Sidebar) :
  In (selected_clothing s) (map fst clothing_options) ->
  exists cf, clothing_factor s = Some cf /\ In cf (map snd clothing_options).
Proof.
  unfold clothing_factor. generalize (selected_clothing s) as k.
  intros k Hk. simpl in Hk.
  repeat (destruct Hk as [<- | Hk];
          [eexists; split; [reflexivity | simpl; tauto] |]).
  contradiction.
Qed.

Lemma clothing_value_bounds (cf : Q) :
  In cf (map snd clothing_options) -> 0.05 <= cf /\ cf <= 1.
Proof.
  simpl. intros H.
  repeat (destruct H as [<- | H]; [split; lra |]).
  contradiction.
Qed.

(** ** Shape of a run *)

Section Run.

Variables (s : Sidebar) (t : datetime) (r : Report).
Hypothesis Hrun : run s t = Some r.

(** A run that completes found its clothing factor and its UV factor, and
    every field of its report is the corresponding expression of the
    script. *)
Lemma run_inv :
  exists cf uvf,
    clothing_factor s = Some cf /\
    uv_factor (uv_index s) = Some uvf /\
    let rate :=
      vitamin_d_rate uvf cf (quality_factor (hour t)) (adaptation_factor s)
    in
    r = mkReport cf (quality_factor (hour t)) uvf rate
          (time_to_15000_minutes rate)
          (burn_time_minutes (uv_index s))
          (safety_warning_minutes (uv_index s))
          (fst (seasonal_notice (month t) bmi))
          (display_results t (quality_note t) rate
             (time_to_15000_minutes rate)
             (burn_time_minutes (uv_index s))
             (safety_warning_minutes (uv_index s))
           ++ [snd (seasonal_notice (month t) bmi)]).
Proof.
  revert Hrun.
  unfold run, bind, burn_time_minutes, safety_warning_minutes.
  destruct (clothing_factor s) as [cf|]; [|discriminate].
  destruct (uv_factor (uv_index s)) as [uvf|]; [|discriminate].
  destruct (burn_times (uv_index s)) as [burn safety].
  destruct (seasonal_notice (month t) bmi) as [dose notice].
  intros [= <-]. exists cf, uvf. repeat split.
Qed.

Lemma run_supplement_rec :
  rep_supplement_rec r
  = if is_winter (month t) then Some (supplement_rec bmi) else None.
Proof.
  destruct run_inv as (cf & uvf & _ & _ & ->).
  cbn [rep_supplement_rec]. unfold seasonal_notice.
  now destruct (is_winter (month t)).
Qed.

End Run.

Lemma run_defined (s : Sidebar) (t : datetime) :
  widgets_ok s -> exists r, run s t = Some r.
Proof.
  intros (Hu0 & _ & _ & _ & Hk).
  destruct (clothing_factor_defined s Hk) as (cf & Hcf & _).
  unfold run, bind. rewrite Hcf, (uv_factor_nonneg_defined _ Hu0).
  destruct (burn_times (uv_index s)) as [burn safety].
  destruct (seasonal_notice (month t) bmi) as [dose notice].
  eexists. reflexivity.
Qed.

Lemma default_widgets_ok : widgets_ok default_sidebar.
Proof.
  unfold widgets_ok, default_sidebar; simpl.
  repeat split; try lra. now left.
Qed.

(** ** Synthesis rate *)

(** C1: for every uv_factor, clothing_factor, quality_factor and
    adaptation_factor the computed rate is the product
    21000 x uv_factor x clothing_factor x 1.0 x 0.95 x quality_factor x
    adaptation_factor, and the rate a run reports is that product of the
    factors the same run reports. *)
Theorem vitamin_d_rate_is_product :
  (forall uvf cf qf af : Q,
      vitamin_d_rate uvf cf qf af == 21000 * uvf * cf * 1.0 * 0.95 * qf * af)
  /\
  (forall s t r,
      run s t = Some r ->
      rep_vitamin_d_rate r
      == 21000 * rep_uv_factor r * rep_clothing_factor r * 1.0 * 0.95
         * rep_quality_factor r * adaptation_factor s).
Proof.
  split.
  - intros uvf cf qf af.
    unfold vitamin_d_rate, base_rate, skin_type_factor, age_factor.
    reflexivity.
  - intros s t r Hrun.
    destruct (run_inv s t r Hrun) as (cf & uvf & _ & _ & ->).
    cbn [rep_vitamin_d_rate rep_uv_factor rep_clothing_factor
         rep_quality_factor].
    unfold vitamin_d_rate, base_rate, skin_type_factor, age_factor.
    reflexivity.
Qed.

Lemma vitamin_d_rate_is_product_witness :
  exists r,
    run default_sidebar july_noon = Some r /\
    rep_vitamin_d_rate r
    == 21000 * rep_uv_factor r * rep_clothing_factor r * 1.0 * 0.95
       * rep_quality_factor r * adaptation_factor default_sidebar.
Proof.
  eexists. split; [reflexivity|].
  apply (proj2 vitamin_d_rate_is_product default_sidebar july_noon).
  reflexivity.
Defined.

(** ** UV factor *)



(** ** Time to the target dose *)

Lemma time_to_15000_minutes_shape :
  (forall rate : Q,
      0 < rate ->
      time_to_15000_minutes rate = Finite ((15000 / rate) * 60))
  /\
  (forall rate : Q, rate <= 0 -> time_to_15000_minutes rate = Inf).
Proof.
  unfold time_to_15000_minutes. split; intros rate H.
  - apply Qltb_lt in H. now rewrite H.
  - apply Qltb_ge in H. now rewrite H.
Qed.

(** C3: with a positive rate the time is (15000 / vitamin_d_rate) x 60
    minutes; with a zero rate it is positive infinity, and that is a value of
    a run that completes (a zero UV index gives such a run), not an
    exception. *)
Theorem time_to_15000_minutes_spec :
  (forall rate : Q,
      0 < rate ->
      time_to_15000_minutes rate = Finite ((15000 / rate) * 60))
  /\
  (forall rate : Q, rate == 0 -> time_to_15000_minutes rate = Inf)
  /\
  (forall s t,
      widgets_ok s -> uv_index s == 0 ->
      exists r,
        run s t = Some r /\
        rep_vitamin_d_rate r == 0 /\
        rep_time_to_15000_minutes r = Inf).
Proof.
  destruct time_to_15000_minutes_shape as [Hpos Hzero].
  split; [exact Hpos|].
  split; [intros rate H0; apply Hzero; lra|].
  intros s t Hok Hu.
  destruct (run_defined s t Hok) as (r & Hrun).
  exists r. split; [exact Hrun|].
  destruct (run_inv s t r Hrun) as (cf & uvf & _ & Huvf & ->).
  cbn [rep_vitamin_d_rate rep_time_to_15000_minutes].
  assert (H0 : uvf == 0).
  { rewrite uv_factor_nonneg_defined in Huvf by lra.
    injection Huvf as <-. rewrite Hu. reflexivity. }
  assert (Hrate : vitamin_d_rate uvf cf (quality_factor (hour t))
                    (adaptation_factor s) == 0).
  { unfold vitamin_d_rate. rewrite H0. ring. }
  split; [exact Hrate | apply Hzero; lra].
Qed.

Lemma time_to_15000_minutes_spec_witness :
  time_to_15000_minutes 33000 = Finite ((15000 / 33000) * 60).
Proof.
  apply (proj1 time_to_15000_minutes_spec 33000). lra.
Defined.

(** ** Burn time *)

(** C4: with a positive UV index the burn time is 425 / uv_index and the
    safety threshold is the burn time x 0.8; with a zero UV index both are
    positive infinity. *)
Theorem burn_times_spec :
  (forall uv : Q,
      0 < uv ->
      burn_time_minutes uv = Finite (425 / uv) /\
      safety_warning_minutes uv = Finite ((425 / uv) * 0.8))
  /\
  (forall uv : Q,
      uv == 0 ->
      burn_time_minutes uv = Inf /\ safety_warning_minutes uv = Inf).
Proof.
  unfold burn_time_minutes, safety_warning_minutes, burn_times, med_uv1.
  split.
  - intros uv Hpos. apply Qltb_lt in Hpos. rewrite Hpos. split; reflexivity.
  - intros uv H0. destruct (Qltb 0 uv) eqn:E; [|split; reflexivity].
    apply Qltb_lt in E. lra.
Qed.

Lemma burn_times_spec_witness :
  burn_time_minutes 9.0 = Finite (425 / 9.0) /\
  safety_warning_minutes 9.0 = Finite ((425 / 9.0) * 0.8).
Proof.
  apply (proj1 burn_times_spec 9.0). lra.
Defined.

(** ** Quality factor *)

(** C8: for every hour in [0, 23] the quality factor is 1.0 when
    10 <= hour < 15, that is for the hours 10, 11, 12, 13 and 14, and 0.5 for
    every other hour; it takes no other value. *)
Theorem quality_factor_spec (current_hour : Z)
    (Hrange : (0 <= current_hour <= 23)%Z) :
  ((10 <= current_hour < 15)%Z <-> In current_hour [10; 11; 12; 13; 14]%Z)
  /\ ((10 <= current_hour < 15)%Z -> quality_factor current_hour = 1.0)
  /\ (~ (10 <= current_hour < 15)%Z -> quality_factor current_hour = 0.5)
  /\ (quality_factor current_hour = 1.0 \/ quality_factor current_hour = 0.5).
Proof.
  unfold quality_factor, peak_hours.
  repeat split.
  - intros H. simpl. lia.
  - simpl In in H. lia.
  - simpl In in H. lia.
  - intros H.
    replace (10 <=? current_hour)%Z with true by (symmetry; lia).
    replace (current_hour <? 15)%Z with true by (symmetry; lia).
    reflexivity.
  - intros H.
    destruct (10 <=? current_hour)%Z eqn:E1;
      destruct (current_hour <? 15)%Z eqn:E2; try reflexivity.
    exfalso. apply H. lia.
  - destruct ((10 <=? current_hour) && (current_hour <? 15))%Z; auto.
Qed.

Lemma quality_factor_spec_witness :
  ((10 <= 12 < 15)%Z <-> In 12%Z [10; 11; 12; 13; 14]%Z)
  /\ ((10 <= 12 < 15)%Z -> quality_factor 12 = 1.0)
  /\ (~ (10 <= 12 < 15)%Z -> quality_factor 12 = 0.5)
  /\ (quality_factor 12 = 1.0 \/ quality_factor 12 = 0.5).
Proof.
  apply (quality_factor_spec 12). lia.
Defined.

(** ** Winter supplement notice *)

Lemma is_winter_In (m : Z) : is_winter m = true <-> In m [11; 12; 1; 2]%Z.
Proof.
  unfold is_winter, winter_months. rewrite existsb_exists. split.
  - intros (x & Hx & E). apply Z.eqb_eq in E. now subst x.
  - intros H. exists m. split; [exact H | apply Z.eqb_refl].
Qed.

Lemma supplement_rec_tiers (b : Q) :
  (30 <= b -> supplement_rec b = 4000%Z) /\
  (25 <= b -> b < 30 -> supplement_rec b = 3000%Z) /\
  (b < 25 -> supplement_rec b = 2000%Z).
Proof.
  unfold supplement_rec.
  destruct (Qle_bool 30 b) eqn:E30; destruct (Qle_bool 25 b) eqn:E25;
    try apply Qle_bool_iff in E30; try apply Qle_bool_iff in E25;
    try apply Qle_bool_lt in E30; try apply Qle_bool_lt in E25;
    repeat split; intros; try reflexivity; lra.
Qed.

(** C5: a dose is produced exactly in the months 11, 12, 1 and 2; there it
    is 4000 for a BMI of at least 30, 3000 for a BMI of at least 25 and below
    30, and 2000 for a BMI below 25, so that 25.0 and 30.0 belong to the
    higher tier; in every other month the run binds no dose and puts only the
    informational note on the page, a text with no digit in it. *)
Theorem seasonal_notice_spec (current_month : Z) (b : Q) :
  (In current_month [11; 12; 1; 2]%Z ->
   exists dose,
     seasonal_notice current_month b
     = (Some dose, warning (winter_notice b dose)) /\
     (30 <= b -> dose = 4000%Z) /\
     (25 <= b -> b < 30 -> dose = 3000%Z) /\
     (b < 25 -> dose = 2000%Z))
  /\
  (~ In current_month [11; 12; 1; 2]%Z ->
   seasonal_notice current_month b = (None, info not_winter_note))
  /\ supplement_rec 25.0 = 3000%Z
  /\ supplement_rec 30.0 = 4000%Z
  /\ has_digit not_winter_note = false.
Proof.
  split; [|split; [|repeat split]].
  - intros Hm. apply is_winter_In in Hm.
    exists (supplement_rec b). unfold seasonal_notice. rewrite Hm.
    split; [reflexivity | apply supplement_rec_tiers].
  - intros Hm. unfold seasonal_notice.
    destruct (is_winter current_month) eqn:E; [|reflexivity].
    apply is_winter_In in E. contradiction.
Qed.

Lemma seasonal_notice_spec_witness :
  exists dose,
    seasonal_notice 1 27.5 = (Some dose, warning (winter_notice 27.5 dose)) /\
    (30 <= 27.5 -> dose = 4000%Z) /\
    (25 <= 27.5 -> 27.5 < 30 -> dose = 3000%Z) /\
    (27.5 < 25 -> dose = 2000%Z).
Proof.
  apply (proj1 (seasonal_notice_spec 1 27.5)). simpl. tauto.
Defined.

(** ** The default scenario *)

(** C6, as stated, fails: at UV index 9.0, clothing 1.0, quality 1.0 and
    adaptation 0.8 the rate is more than one unit below 33,149.2 and does not
    round to it, and the time does not round to 27.1. *)
Lemma default_scenario_not_as_claimed :
  exists uvf m,
    uv_factor 9.0 = Some uvf /\
    time_to_15000_minutes (vitamin_d_rate uvf 1.0 1.0 0.8) = Finite m /\
    vitamin_d_rate uvf 1.0 1.0 0.8 < 33149.2 - 1 /\
    ~ agrees_to 1 (vitamin_d_rate uvf 1.0 1.0 0.8) 33149.2 /\
    ~ agrees_to 1 m 27.1.
Proof.
  do 2 eexists.
  split; [reflexivity|]. split; [reflexivity|].
  repeat split; by_evaluation.
Qed.

(** C6, amended: the run with the default widgets at a peak hour has
    clothing and quality factor 1.0, uv_factor = 27/13 (2.0769 to four
    places), vitamin_d_rate = 430920/13 (33,147.7 to one place), a time to
    target of 27.2 minutes to one place, a burn time of 425/9 (47.2) and a
    safety threshold of 37.8; the page prints these figures. *)
Theorem default_scenario :
  exists r m b w,
    run default_sidebar july_noon = Some r /\
    rep_clothing_factor r = 1.0 /\
    rep_quality_factor r = 1.0 /\
    rep_uv_factor r == 27 # 13 /\
    agrees_to 4 (rep_uv_factor r) 2.0769 /\
    rep_vitamin_d_rate r == 430920 # 13 /\
    agrees_to 1 (rep_vitamin_d_rate r) 33147.7 /\
    rep_time_to_15000_minutes r = Finite m /\
    agrees_to 1 m 27.2 /\
    rep_burn_time_minutes r = Finite b /\
    b == 425 # 9 /\
    agrees_to 1 b 47.2 /\
    rep_safety_warning_minutes r = Finite w /\
    agrees_to 1 w 37.8 /\
    In (write "33147.69 IU/hour") (rep_page r) /\
    In (write "Approximately 27.2 minutes of exposure.") (rep_page r) /\
    In (write "Technical burn time (1 MED): 47.2 minutes.") (rep_page r) /\
    In (write "Safety warning threshold (80% of burn time): 37.8 minutes.")
       (rep_page r).
Proof.
  do 4 eexists.
  split; [reflexivity|].
  cbn [rep_clothing_factor rep_quality_factor rep_uv_factor
       rep_vitamin_d_rate rep_time_to_15000_minutes rep_burn_time_minutes
       rep_safety_warning_minutes rep_page].
  repeat match goal with
         | |- _ /\ _ => split
         end;
    try reflexivity; try by_evaluation;
    vm_compute; tauto.
Qed.

(** ** Infinity on the page *)




(** ** Reachability of the zero-rate branch *)





(** ** The fixed profile *)

Lemma bmi_below_25 : bmi < 25.
Proof. by_evaluation. Qed.

(** C10: with height 74 in and weight 180 lb the BMI is 23.1 to one place
    and below 25, so a run in a winter month always recommends 2000 IU/day,
    and no run recommends 3000 or 4000. *)
Theorem fixed_profile_dose_is_2000 :
  agrees_to 1 bmi 23.1 /\
  bmi < 25 /\
  supplement_rec bmi = 2000%Z /\
  (forall s t r,
      run s t = Some r ->
      (In (month t) [11; 12; 1; 2]%Z -> rep_supplement_rec r = Some 2000%Z) /\
      rep_supplement_rec r <> Some 3000%Z /\
      rep_supplement_rec r <> Some 4000%Z).
Proof.
  assert (Hdose : supplement_rec bmi = 2000%Z)
    by (apply supplement_rec_tiers, bmi_below_25).
  split; [by_evaluation|].
  split; [exact bmi_below_25|].
  split; [exact Hdose|].
  intros s t r Hrun. rewrite (run_supplement_rec s t r Hrun), Hdose.
  split.
  - intros Hm. apply is_winter_In in Hm. now rewrite Hm.
  - destruct (is_winter (month t)); split; discriminate.
Qed.

Lemma fixed_profile_dose_is_2000_witness :
  exists r,
    run default_sidebar january_evening = Some r /\
    rep_supplement_rec r = Some 2000%Z.
Proof.
  eexists. split; [reflexivity|].
  apply (proj2 (proj2 (proj2 fixed_profile_dose_is_2000))
           default_sidebar january_evening _ eq_refl).
  simpl. tauto.
Defined.

(** * Further properties of the script *)

(** ** Exceptions *)

Lemma getitem_None (d : list (string * Q)) (k : string) :
  getitem d k = None <-> ~ In k (map fst d).
Proof.
  induction d as [|[k' v] d IH]; simpl.
  - tauto.
  - destruct (String.eqb k k') eqn:E.
    + apply String.eqb_eq in E. subst k'. split; [discriminate | tauto].
    + apply String.eqb_neq in E. rewrite IH. split.
      * intros Hd [Hk | Hk]; [now apply E | now apply Hd].
      * tauto.
Qed.

Lemma truediv_None (x y : Q) : truediv x y = None <-> y == 0.
Proof.
  unfold truediv. destruct (Qeq_bool y 0) eqn:E.
  - apply Qeq_bool_iff in E. tauto.
  - apply Qeq_bool_neq in E. split; [discriminate | tauto].
Qed.

Lemma run_None (s : Sidebar) (t : datetime) :
  run s t = None <->
  clothing_factor s = None \/ uv_factor (uv_index s) = None.
Proof.
  unfold run, bind.
  destruct (clothing_factor s) as [cf|]; [|tauto].
  destruct (uv_factor (uv_index s)) as [uvf|]; [|tauto].
  destruct (burn_times (uv_index s)) as [burn safety].
  destruct (seasonal_notice (month t) bmi) as [dose notice].
  split; [discriminate | intros [H | H]; discriminate H].
Qed.

(** X1: a run ends in an exception exactly when the selected clothing
    label is not a key of the dictionary (KeyError, line 23) or the UV index
    is -4 (ZeroDivisionError, line 51); the values the widgets can return
    produce neither. *)
Theorem run_raises_iff :
  (forall s t,
      run s t = None <->
      ~ In (selected_clothing s) (map fst clothing_options)
      \/ uv_index s == -4)
  /\
  (forall s t, widgets_ok s -> run s t <> None).
Proof.
  assert (Hiff : forall s t,
             run s t = None <->
             ~ In (selected_clothing s) (map fst clothing_options)
             \/ uv_index s == -4).
  { intros s t. rewrite run_None. unfold clothing_factor, uv_factor.
    rewrite getitem_None, truediv_None.
    split; (intros [H | H]; [left; exact H | right; lra]). }
  split; [exact Hiff|].
  intros s t (Hu0 & _ & _ & _ & Hk) Hnone.
  apply Hiff in Hnone. destruct Hnone as [H | H]; [now apply H | lra].
Qed.

Lemma run_raises_iff_witness :
  run default_sidebar january_evening <> None.
Proof.
  apply (proj2 run_raises_iff default_sidebar january_evening).
  exact default_widgets_ok.
Defined.

(** ** Layout of the page *)

(** X2: the page of a completed run is nine written lines followed by one
    notice; in the months 11, 12, 1 and 2 the notice is the winter warning
    with 2000 IU/day, in every other month it is the informational note. *)
Theorem page_layout (s : Sidebar) (t : datetime) (r : Report)
    (Hrun : run s t = Some r) :
  exists lines notice,
    rep_page r = (map write lines ++ [notice])%list /\
    length lines = 9%nat /\
    (In (month t) [11; 12; 1; 2]%Z ->
     notice = warning (winter_notice bmi 2000)) /\
    (~ In (month t) [11; 12; 1; 2]%Z -> notice = info not_winter_note).
Proof.
  destruct (run_inv s t r Hrun) as (cf & uvf & _ & _ & ->).
  cbn [rep_page]. unfold display_results.
  eexists [_; _; _; _; _; _; _; _; _], _.
  split; [reflexivity|]. split; [reflexivity|].
  unfold seasonal_notice.
  assert (Hdose : supplement_rec bmi = 2000%Z)
    by (apply supplement_rec_tiers, bmi_below_25).
  split; intros Hm.
  - apply is_winter_In in Hm. rewrite Hm, Hdose. reflexivity.
  - destruct (is_winter (month t)) eqn:E; [|reflexivity].
    apply is_winter_In in E. contradiction.
Qed.

Lemma page_layout_witness :
  exists r lines notice,
    run default_sidebar january_evening = Some r /\
    rep_page r = (map write lines ++ [notice])%list /\
    length lines = 9%nat /\
    (In (month january_evening) [11; 12; 1; 2]%Z ->
     notice = warning (winter_notice bmi 2000)) /\
    (~ In (month january_evening) [11; 12; 1; 2]%Z ->
     notice = info not_winter_note).
Proof.
  eexists.
  destruct (page_layout default_sidebar january_evening _ eq_refl)
    as (lines & notice & H).
  exists lines, notice. split; [reflexivity | exact H].
Defined.

(** ** Dose delivered at the computed times *)






(** ** Monotonicity *)

Lemma vitamin_d_rate_scale (uvf cf qf af : Q) :
  vitamin_d_rate uvf cf qf af == 19950 * (cf * qf * af) * uvf.
Proof.
  unfold vitamin_d_rate, base_rate, skin_type_factor, age_factor. ring.
Qed.






(** ** Range of the rate *)

Lemma uv_curve_le_at_20 (u : Q) :
  0 <= u -> u <= 20 -> (u * 3.0) / (4.0 + u) <= 2.5.
Proof.
  intros H0 H20. apply Qle_shift_div_r; lra.
Qed.

Lemma quality_factor_bounds (h : Z) :
  0.5 <= quality_factor h /\ quality_factor h <= 1.
Proof.
  unfold quality_factor. destruct (peak_hours h); split; lra.
Qed.

Lemma product_bound (f c q a : Q) :
  0 <= f -> f <= 2.5 -> 0 <= c -> c <= 1 -> 0 <= q -> q <= 1 ->
  0 <= a -> a <= 1.2 ->
  0 <= f * c * q * a /\ f * c * q * a <= 3.
Proof.
  intros Hf0 Hf1 Hc0 Hc1 Hq0 Hq1 Ha0 Ha1.
  assert (H1 : 0 <= f * c /\ f * c <= 2.5) by (split; nra).
  assert (H2 : 0 <= f * c * q /\ f * c * q <= 2.5) by (split; nra).
  split; nra.
Qed.

(** X7: for the values the widgets can return the synthesis rate lies
    between 0 and 59850 IU/hour, so a finite time to target is always more
    than 15 minutes; the upper bound is reached at UV index 20, no clothing,
    adaptation 1.2 and a peak hour. *)
Theorem rate_within_bounds :
  (forall s t r,
      widgets_ok s -> run s t = Some r ->
      0 <= rep_vitamin_d_rate r /\
      rep_vitamin_d_rate r <= 59850 /\
      (forall m, rep_time_to_15000_minutes r = Finite m -> 15 < m))
  /\
  (exists r,
      run brightest_sidebar july_noon = Some r /\
      rep_vitamin_d_rate r == 59850).
Proof.
  split.
  - intros s t r (Hu0 & Hu20 & Ha0 & Ha1 & Hk) Hrun.
    destruct (run_inv s t r Hrun) as (cf & uvf & Hcf & Huvf & ->).
    cbn [rep_vitamin_d_rate rep_time_to_15000_minutes].
    rewrite (uv_factor_nonneg_defined _ Hu0) in Huvf.
    injection Huvf as <-.
    destruct (clothing_factor_defined s Hk) as (cf' & Hcf' & Hin).
    rewrite Hcf in Hcf'. injection Hcf' as <-.
    apply clothing_value_bounds in Hin. destruct Hin as [Hc0 Hc1].
    destruct (quality_factor_bounds (hour t)) as [Hq0 Hq1].
    pose proof (uv_curve_nonneg _ Hu0) as Hf0.
    pose proof (uv_curve_le_at_20 _ Hu0 Hu20) as Hf1.
    set (f := uv_index s * 3.0 / (4.0 + uv_index s)) in *.
    set (q := quality_factor (hour t)) in *.
    set (a := adaptation_factor s) in *.
    assert (Hp : 0 <= f * cf * q * a /\ f * cf * q * a <= 3)
      by (apply product_bound; lra).
    assert (Hrate : vitamin_d_rate f cf q a == 19950 * (f * cf * q * a))
      by (rewrite vitamin_d_rate_scale; ring).
    assert (Hlo : 0 <= vitamin_d_rate f cf q a) by (rewrite Hrate; lra).
    assert (Hhi : vitamin_d_rate f cf q a <= 59850) by (rewrite Hrate; lra).
    split; [exact Hlo|]. split; [exact Hhi|].
    intros m Hm. unfold time_to_15000_minutes in Hm.
    destruct (Qltb 0 (vitamin_d_rate f cf q a)) eqn:E; [|discriminate].
    apply Qltb_lt in E. injection Hm as <-.
    assert (Hquarter : 0.25 < 15000 / vitamin_d_rate f cf q a)
      by (apply Qlt_shift_div_l; lra).
    lra.
  - eexists. split; [reflexivity|]. by_evaluation.
Qed.

Lemma rate_within_bounds_witness :
  exists r,
    run default_sidebar july_noon = Some r /\
    0 <= rep_vitamin_d_rate r /\
    rep_vitamin_d_rate r <= 59850 /\
    (forall m, rep_time_to_15000_minutes r = Finite m -> 15 < m).
Proof.
  eexists. split; [reflexivity|].
  apply (proj1 rate_within_bounds default_sidebar july_noon);
    [exact default_widgets_ok | reflexivity].
Defined.

(** ** Target dose against the burn time *)








(** ** The saturating curve beyond the widget's range *)



(** ** Body mass index *)




(** ** Clothing labels *)



(** ** Dose tiers *)

(** X13: the supplement dose is one of 2000, 3000 and 4000, and it never
    decreases when the BMI increases. *)
Theorem supplement_rec_monotone (b1 b2 : Q) (Hle : b1 <= b2) :
  (supplement_rec b1 <= supplement_rec b2)%Z /\
  In (supplement_rec b1) [2000; 3000; 4000]%Z.
Proof.
  unfold supplement_rec.
  destruct (Qle_bool 30 b1) eqn:E1; destruct (Qle_bool 25 b1) eqn:E2;
    destruct (Qle_bool 30 b2) eqn:E3; destruct (Qle_bool 25 b2) eqn:E4;
    try apply Qle_bool_iff in E1; try apply Qle_bool_lt in E1;
    try apply Qle_bool_iff in E2; try apply Qle_bool_lt in E2;
    try apply Qle_bool_iff in E3; try apply Qle_bool_lt in E3;
    try apply Qle_bool_iff in E4; try apply Qle_bool_lt in E4;
    try (exfalso; lra);
    (split; [lia | simpl; tauto]).
Qed.

Lemma supplement_rec_monotone_witness :
  (supplement_rec 24.9 <= supplement_rec 25)%Z /\
  In (supplement_rec 24.9) [2000; 3000; 4000]%Z.
Proof.
  apply (supplement_rec_monotone 24.9 25). lra.
Defined.

(** ** What the burn time depends on *)

Lemma Qltb_proper (a b c d : Q) : a == b -> c == d -> Qltb a c = Qltb b d.
Proof.
  intros Hab Hcd. unfold Qltb. now rewrite Hab, Hcd.
Qed.

(** X14: the burn time and the safety threshold depend on the UV index
    alone: two runs at the same UV index report the same two figures whatever
    the clothing option, the adaptation factor and the clock. *)
Theorem burn_time_ignores_clothing (s1 s2 : Sidebar) (t1 t2 : datetime)
    (r1 r2 : Report)
    (Huv : uv_index s1 == uv_index s2)
    (Hrun1 : run s1 t1 = Some r1) (Hrun2 : run s2 t2 = Some r2) :
  pyfloat_eq (rep_burn_time_minutes r1) (rep_burn_time_minutes r2) /\
  pyfloat_eq (rep_safety_warning_minutes r1) (rep_safety_warning_minutes r2).
Proof.
  destruct (run_inv s1 t1 r1 Hrun1) as (cf1 & uvf1 & _ & _ & ->).
  destruct (run_inv s2 t2 r2 Hrun2) as (cf2 & uvf2 & _ & _ & ->).
  cbn [rep_burn_time_minutes rep_safety_warning_minutes].
  unfold burn_time_minutes, safety_warning_minutes, burn_times.
  rewrite (Qltb_proper 0 0 _ _ (Qeq_refl 0) Huv).
  destruct (Qltb 0 (uv_index s2)); cbn [fst snd pyfloat_eq];
    [|tauto].
  split; rewrite Huv; reflexivity.
Qed.

Lemma burn_time_ignores_clothing_witness :
  exists r1 r2,
    run default_sidebar july_noon = Some r1 /\
    run heavy_sidebar january_evening = Some r2 /\
    pyfloat_eq (rep_burn_time_minutes r1) (rep_burn_time_minutes r2) /\
    pyfloat_eq (rep_safety_warning_minutes r1)
      (rep_safety_warning_minutes r2).
Proof.
  do 2 eexists. split; [reflexivity|]. split; [reflexivity|].
  apply (burn_time_ignores_clothing default_sidebar heavy_sidebar
           july_noon january_evening);
    reflexivity.
Defined.

(** ** Printed figures *)

Local Open Scope string_scope.

Lemma uint_string_all_digits (d : Decimal.uint) :
  all_digits (NilEmpty.string_of_uint d) = true.
Proof.
  unfold all_digits. induction d; simpl; auto.
Qed.

Lemma str_int_nonneg (m : Z) :
  (0 <= m)%Z ->
  str_int m = NilEmpty.string_of_uint (N.to_uint (Z.to_N m)) /\
  N.to_uint (Z.to_N m) <> Decimal.Nil.
Proof.
  intros Hm. destruct m as [|p|p]; [split; [reflexivity | discriminate]| |lia].
  assert (Hnil : Pos.to_uint p <> Decimal.Nil)
    by apply DecimalPos.Unsigned.to_uint_nonnil.
  split; [|exact Hnil].
  unfold str_int. cbn [Z.to_int NilZero.string_of_int Z.to_N N.to_uint].
  unfold NilZero.string_of_uint.
  destruct (Pos.to_uint p); [contradiction | reflexivity ..].
Qed.

Lemma uint_string_nonempty (d : Decimal.uint) :
  d <> Decimal.Nil ->
  exists c s', NilEmpty.string_of_uint d = String c s'.
Proof.
  destruct d; [contradiction | intros _; simpl; eauto ..].
Qed.

Lemma str_int_reads_back (m : Z) :
  (0 <= m)%Z ->
  exists d,
    NilZero.uint_of_string (str_int m) = Some d /\
    Z.of_N (N.of_uint d) = m /\
    all_digits (str_int m) = true /\
    exists c s', str_int m = String c s' /\ is_digit c = true.
Proof.
  intros Hm. destruct (str_int_nonneg m Hm) as [E Hnil].
  destruct (uint_string_nonempty _ Hnil) as (c & s' & Es).
  assert (Hdigits : all_digits (str_int m) = true)
    by (rewrite E; apply uint_string_all_digits).
  exists (N.to_uint (Z.to_N m)).
  split.
  - rewrite E. unfold NilZero.uint_of_string. rewrite Es, <- Es.
    apply NilEmpty.usu.
  - split; [rewrite DecimalN.Unsigned.of_to; lia|].
    split; [exact Hdigits|].
    exists c, s'. split; [now rewrite E|].
    rewrite E, Es in Hdigits. unfold all_digits in Hdigits.
    simpl in Hdigits. now apply andb_true_iff in Hdigits.
Qed.

Lemma digit_not_point (c : ascii) :
  is_digit c = true -> Ascii.eqb c "." = false /\ Ascii.eqb c "-" = false.
Proof.
  intros Hc. split.
  - destruct (Ascii.eqb_spec c "."); [subst c; discriminate Hc | reflexivity].
  - destruct (Ascii.eqb_spec c "-"); [subst c; discriminate Hc | reflexivity].
Qed.

Lemma split_point_digits (s1 : string) :
  all_digits s1 = true ->
  split_point s1 = (s1, None) /\
  forall s2, split_point (s1 ++ String "." s2) = (s1, Some s2).
Proof.
  unfold all_digits. induction s1 as [|c s1 IH]; simpl.
  - intros _. split; reflexivity.
  - intros H. apply andb_true_iff in H. destruct H as [Hc Hs].
    destruct (digit_not_point c Hc) as [-> _].
    destruct (IH Hs) as [IH1 IH2]. rewrite IH1. split; [reflexivity|].
    intros s2. now rewrite IH2.
Qed.

Lemma digits_value_app (s1 s2 : string) (acc : Z) :
  digits_value (s1 ++ s2) acc
  = match digits_value s1 acc with
    | Some a => digits_value s2 a
    | None => None
    end.
Proof.
  revert acc. induction s1 as [|c s1 IH]; intros acc; simpl.
  - reflexivity.
  - destruct (digit_value c); [apply IH | reflexivity].
Qed.

Lemma digit_value_of_digit (k : Z) :
  (0 <= k < 10)%Z ->
  digit_value (ascii_of_nat (48 + Z.to_nat k)) = Some k.
Proof.
  intros Hk.
  assert (H : (k = 0 \/ k = 1 \/ k = 2 \/ k = 3 \/ k = 4 \/ k = 5
               \/ k = 6 \/ k = 7 \/ k = 8 \/ k = 9)%Z) by lia.
  repeat (destruct H as [-> | H]; [reflexivity|]).
  subst k. reflexivity.
Qed.

Lemma length_app (s1 s2 : string) :
  String.length (s1 ++ s2) = (String.length s1 + String.length s2)%nat.
Proof.
  induction s1 as [|c s1 IH]; simpl; [reflexivity | now rewrite IH].
Qed.

Lemma zfill_length (w : nat) (m : Z) : String.length (zfill w m) = w.
Proof.
  revert m. induction w as [|w IH]; intros m; simpl; [reflexivity|].
  rewrite length_app, IH. simpl. lia.
Qed.

Lemma zfill_value (w : nat) (m acc : Z) :
  digits_value (zfill w m) acc
  = Some (acc * 10 ^ Z.of_nat w + m mod 10 ^ Z.of_nat w)%Z.
Proof.
  revert m acc. induction w as [|w IH]; intros m acc.
  - simpl. f_equal. rewrite Z.mod_1_r. lia.
  - cbn [zfill]. rewrite digits_value_app, IH. cbn [digits_value].
    rewrite digit_value_of_digit by (apply Z.mod_pos_bound; lia).
    f_equal.
    rewrite Nat2Z.inj_succ, Z.pow_succ_r by lia.
    rewrite (Z.rem_mul_r m 10 (10 ^ Z.of_nat w)) by
      (try lia; apply Z.pow_pos_nonneg; lia).
    lia.
Qed.

Lemma round_half_even_near (x : Q) :
  Qabs (inject_Z (round_half_even x) - x) <= 1 # 2.
Proof.
  unfold round_half_even.
  pose proof (Qfloor_le x) as Hlo.
  pose proof (Qlt_floor x) as Hhi.
  rewrite inject_Z_plus in Hhi. change (inject_Z 1) with 1 in Hhi.
  set (f := Qfloor x) in *.
  apply Qabs_Qle_condition.
  destruct (Qcompare_spec (x - inject_Z f) (1 # 2)) as [E | E | E];
    [destruct (Z.even f)| |];
    rewrite ?inject_Z_plus; change (inject_Z 1) with 1;
    split; lra.
Qed.

Lemma round_half_even_nonneg (x : Q) :
  0 <= x -> (0 <= round_half_even x)%Z.
Proof.
  intros Hx.
  assert (Hf : (0 <= Qfloor x)%Z).
  { change 0%Z with (Qfloor 0). now apply Qfloor_resp_le. }
  unfold round_half_even.
  destruct (Qcompare (x - inject_Z (Qfloor x)) (1 # 2));
    [destruct (Z.even (Qfloor x))| |]; lia.
Qed.

Lemma append_empty (s : string) : s ++ "" = s.
Proof.
  induction s as [|c s IH]; simpl; [reflexivity | now rewrite IH].
Qed.

(** The digits of [format_Q] without the sign read back as the rounded
    value over the scale. *)
Lemma unsigned_text_reads_back (prec : nat) (n : Z) :
  (0 <= n)%Z ->
  let scale := (10 ^ Z.of_nat prec)%Z in
  let text :=
    str_int (n / scale) ++
    match prec with
    | O => ""
    | _ => "." ++ zfill prec (n mod scale)
    end in
  exists d,
    read_unsigned text = Some d /\
    d == inject_Z n / inject_Z scale /\
    exists c rest, text = String c rest /\ Ascii.eqb c "-" = false.
Proof.
  intros Hn scale text.
  assert (Hscale : (0 < scale)%Z) by (apply Z.pow_pos_nonneg; lia).
  assert (Hip : (0 <= n / scale)%Z) by (apply Z.div_pos; lia).
  destruct (str_int_reads_back _ Hip) as (d & Hd & Hval & Hdigits & Hhead).
  destruct (split_point_digits _ Hdigits) as [Hsplit0 Hsplit].
  destruct Hhead as (c & rest & Hs & Hc).
  apply digit_not_point in Hc. destruct Hc as [_ Hc].
  assert (HscaleQ : 0 < inject_Z scale)
    by (change 0 with (inject_Z 0); now rewrite <- Zlt_Qlt).
  assert (Hdecomp : inject_Z n
                    == inject_Z scale * inject_Z (n / scale)
                       + inject_Z (n mod scale)).
  { rewrite <- inject_Z_mult, <- inject_Z_plus.
    now rewrite <- Z.div_mod by lia. }
  subst text. destruct prec as [|p].
  - rewrite append_empty.
    exists (inject_Z (n / scale)). split.
    + unfold read_unsigned. now rewrite Hsplit0, Hd, Hval.
    + split.
      * change scale with 1%Z. rewrite Z.div_1_r. field.
      * exists c, rest. split; [exact Hs | exact Hc].
  - cbn [append]. 
    exists (inject_Z (n / scale)
            + inject_Z (n mod scale) / inject_Z scale).
    split.
    + unfold read_unsigned. rewrite Hsplit, Hd, Hval.
      rewrite zfill_value, zfill_length.
      fold scale. rewrite Z.mul_0_l, Z.add_0_l, Z.mod_mod by lia.
      reflexivity.
    + split.
      * rewrite Hdecomp. field. lra.
      * exists c, (rest ++ String "." (zfill (S p) (n mod scale))).
        split; [now rewrite Hs | exact Hc].
Qed.

(** A figure printed with a fixed number of decimals reads back as a
    decimal that agrees with the value to that many places. *)
Lemma format_Q_reads_back (prec : nat) (q : Q) :
  exists d, read_fixed (format_Q prec q) = Some d /\ agrees_to prec q d.
Proof.
  unfold format_Q.
  set (scale := (10 ^ Z.of_nat prec)%Z).
  assert (Hscale : (0 < scale)%Z) by (apply Z.pow_pos_nonneg; lia).
  assert (HscaleQ : 0 < inject_Z scale)
    by (change 0 with (inject_Z 0); now rewrite <- Zlt_Qlt).
  set (x := Qabs q * inject_Z scale).
  assert (Hx : 0 <= x)
    by (apply Qmult_le_0_compat; [apply Qabs_nonneg | lra]).
  pose proof (round_half_even_nonneg x Hx) as Hn.
  pose proof (round_half_even_near x) as Hnear.
  set (n := round_half_even x) in *.
  destruct (unsigned_text_reads_back prec n Hn)
    as (d & Hread & Hd & c & rest & Htext & Hc).
  fold scale in Hread, Hd, Htext.
  assert (Hclose : Qabs (d - Qabs q) <= (1 # 2) / inject_Z scale).
  { apply Qabs_Qle_condition in Hnear. destruct Hnear as [Hlo Hhi].
    assert (Hhalf : (1 # 2) / inject_Z scale * inject_Z scale == 1 # 2)
      by (field; lra).
    assert (Hdn : d * inject_Z scale == inject_Z n)
      by (rewrite Hd; field; lra).
    unfold x in Hlo, Hhi.
    set (h := (1 # 2) / inject_Z scale) in *.
    set (sc := inject_Z scale) in *.
    set (a := Qabs q) in *.
    apply Qabs_Qle_condition. split.
    - apply (Qmult_le_r _ _ sc HscaleQ). nra.
    - apply (Qmult_le_r _ _ sc HscaleQ). nra. }
  unfold agrees_to. fold scale.
  set (text := str_int (n / scale) ++
               match prec with
               | O => ""
               | _ => "." ++ zfill prec (n mod scale)
               end) in *.
  destruct (Qltb q 0) eqn:Esign.
  - apply Qltb_lt in Esign.
    exists (- d). split.
    + change (read_fixed ("-" ++ text))
        with (option_map Qopp (read_unsigned text)).
      now rewrite Hread.
    + rewrite (Qabs_neg q) in Hclose by lra.
      apply Qabs_Qle_condition in Hclose.
      apply Qabs_Qle_condition. lra.
  - apply Qltb_ge in Esign.
    exists d. split.
    + change ("" ++ text) with text.
      rewrite <- Hread, Htext. cbn [read_fixed]. now rewrite Hc.
    + rewrite (Qabs_pos q Esign) in Hclose.
      apply Qabs_Qle_condition in Hclose.
      apply Qabs_Qle_condition. lra.
Qed.

(** X15: on the page of a completed run the rate is printed as a decimal
    that reads back to the computed rate to two places, and each of the time
    to target, the burn time and the safety threshold, when finite, is
    printed as a decimal that reads back to the computed value to one
    place; the text printed for infinity does not read back as a number. *)
Theorem page_figures_read_back (s : Sidebar) (t : datetime) (r : Report)
    (Hrun : run s t = Some r) :
  (exists text d,
      nth_error (rep_page r) 3 = Some (write (text ++ " IU/hour")) /\
      read_fixed text = Some d /\
      agrees_to 2 (rep_vitamin_d_rate r) d)
  /\
  (forall m,
      rep_time_to_15000_minutes r = Finite m ->
      exists text d,
        nth_error (rep_page r) 5
        = Some (write ("Approximately " ++ text ++ " minutes of exposure."))
        /\ read_fixed text = Some d /\ agrees_to 1 m d)
  /\
  (forall b,
      rep_burn_time_minutes r = Finite b ->
      exists text d,
        nth_error (rep_page r) 7
        = Some (write ("Technical burn time (1 MED): " ++ text ++
                       " minutes."))
        /\ read_fixed text = Some d /\ agrees_to 1 b d)
  /\
  (forall w,
      rep_safety_warning_minutes r = Finite w ->
      exists text d,
        nth_error (rep_page r) 8
        = Some (write ("Safety warning threshold (80% of burn time): " ++
                       text ++ " minutes."))
        /\ read_fixed text = Some d /\ agrees_to 1 w d)
  /\ read_fixed (format_f 1 Inf) = None.
Proof.
  destruct (run_inv s t r Hrun) as (cf & uvf & _ & _ & ->).
  cbn [rep_page rep_vitamin_d_rate rep_time_to_15000_minutes
       rep_burn_time_minutes rep_safety_warning_minutes].
  unfold display_results.
  split; [|split; [|split; [|split; [|reflexivity]]]].
  - destruct (format_Q_reads_back 2
                (vitamin_d_rate uvf cf (quality_factor (hour t))
                   (adaptation_factor s))) as (d & Hd & Hagree).
    do 2 eexists. split; [reflexivity|]. split; [exact Hd | exact Hagree].
  - intros m ->.
    destruct (format_Q_reads_back 1 m) as (d & Hd & Hagree).
    do 2 eexists. split; [reflexivity|]. split; [exact Hd | exact Hagree].
  - intros b ->.
    destruct (format_Q_reads_back 1 b) as (d & Hd & Hagree).
    do 2 eexists. split; [reflexivity|]. split; [exact Hd | exact Hagree].
  - intros w ->.
    destruct (format_Q_reads_back 1 w) as (d & Hd & Hagree).
    do 2 eexists. split; [reflexivity|]. split; [exact Hd | exact Hagree].
Qed.

Lemma page_figures_read_back_witness :
  exists r text d,
    run default_sidebar july_noon = Some r /\
    nth_error (rep_page r) 3 = Some (write (text ++ " IU/hour")) /\
    read_fixed text = Some d /\
    agrees_to 2 (rep_vitamin_d_rate r) d.
Proof.
  eexists.
  destruct (proj1 (page_figures_read_back default_sidebar july_noon _
                     eq_refl)) as (text & d & H).
  exists text, d. split; [reflexivity | exact H].
Defined.

(** X16: the second line of the page states the quality factor that went
    into the rate: it is the peak-time sentence exactly when the run used 1.0,
    and otherwise the off-peak sentence, which carries the clock time and
    the factor 0.5. *)
Theorem quality_note_matches_factor (s : Sidebar) (t : datetime)
    (r : Report) (Hrun : run s t = Some r) :
  (rep_quality_factor r = 1.0 /\
   nth_error (rep_page r) 1
   = Some (write "Peak time (10 AM - 3 PM): Quality Factor = 1.0"))
  \/
  (rep_quality_factor r = 0.5 /\
   nth_error (rep_page r) 1
   = Some (write ("Off-peak time (" ++ strftime_I_M_p t ++
                  "): Quality Factor = 0.5 (reduced for lower UV-B efficacy)"))).
Proof.
  destruct (run_inv s t r Hrun) as (cf & uvf & _ & _ & ->).
  cbn [rep_page rep_quality_factor]. unfold display_results.
  cbn [app nth_error]. unfold quality_factor, quality_note.
  destruct (peak_hours (hour t)); [left | right]; split; reflexivity.
Qed.

Lemma quality_note_matches_factor_witness :
  exists r,
    run default_sidebar january_evening = Some r /\
    rep_quality_factor r = 0.5 /\
    nth_error (rep_page r) 1
    = Some (write "Off-peak time (06:05 PM): Quality Factor = 0.5 (reduced for lower UV-B efficacy)").
Proof.
  eexists. split; [reflexivity|].
  destruct (quality_note_matches_factor default_sidebar january_evening _
              eq_refl) as [[H _] | H].
  - discriminate H.
  - exact H.
Defined.
